(** * Lanyard client: response envelope and fetch operation

    A shallow embedding of [src/types.ts] (namespace [API], and the
    nameplate palettes of namespace [Types]) and [src/http.ts] (class
    [LanyardHTTPError], function [get]).

    The bodies handled by the library come out of [response.json()] and
    are cast, unchecked, to the declared union type.  The embedding
    therefore works on run-time JavaScript values; the declared union
    [EitherAPIResponse] is a separate inductive type with its encoding
    into values.  Throwing, awaiting a rejected promise and the one
    network call are threaded through a small state-and-exception monad
    whose state is the log of requests handed to the network. *)

From Stdlib Require Import String Ascii List Bool DecimalString.
Import ListNotations.
Local Open Scope string_scope.

(** ** Reading a URL

    The components of an [https] URL text, used to state what the
    request built by [get] addresses. *)

Module URL.

Definition is_slash (a : ascii) : bool := Ascii.eqb a "/".
Definition is_hash (a : ascii) : bool := Ascii.eqb a "#".
Definition ends_path (a : ascii) : bool :=
  Ascii.eqb a "?" || Ascii.eqb a "#".
Definition ends_host (a : ascii) : bool := is_slash a || ends_path a.

(** The longest prefix free of [stop] characters, and the rest. *)
Fixpoint span (stop : ascii -> bool) (s : string) : string * string :=
  match s with
  | EmptyString => (EmptyString, EmptyString)
  | String a r =>
      if stop a then (EmptyString, s)
      else let (h, t) := span stop r in (String a h, t)
  end.

(** The pieces between the slashes. *)
Fixpoint segments (s : string) : list string :=
  match s with
  | EmptyString => [EmptyString]
  | String a r =>
      if is_slash a then EmptyString :: segments r
      else match segments r with
           | h :: t => String a h :: t
           | [] => [String a EmptyString]
           end
  end.

Fixpoint strip_prefix (p s : string) : option string :=
  match p, s with
  | EmptyString, _ => Some s
  | String a p', String b s' =>
      if Ascii.eqb a b then strip_prefix p' s' else None
  | String _ _, EmptyString => None
  end.

Record parts : Type := {
  authority : string;
  path : list string;
  query : option string;
  fragment : option string
}.

Definition parse (u : string) : option parts :=
  match strip_prefix "https://" u with
  | None => None
  | Some rest =>
      let (h, r1) := span ends_host rest in
      let (p, r2) := span ends_path r1 in
      let (q, r3) :=
        match r2 with
        | String "?" r => let (q, r3) := span is_hash r in (Some q, r3)
        | _ => (None, r2)
        end in
      Some {| authority := h;
              path := match p with
                      | String "/" p' => segments p'
                      | _ => []
                      end;
              query := q;
              fragment := match r3 with
                          | String "#" f => Some f
                          | _ => None
                          end |}
  end.

(** The texts of the declared type [Types.Snowflake], [`${bigint}`],
    are the texts of bigint literals: a minus sign or none, then a run
    of decimal digits, or of digits and letters after a [0x], [0o] or
    [0b] prefix.  [is_snowflake] accepts every text made of a minus
    sign or none and a non-empty run of ASCII digits and letters. *)
Definition is_alnum (a : ascii) : bool :=
  (Ascii.leb "0" a && Ascii.leb a "9")
  || (Ascii.leb "a" a && Ascii.leb a "z")
  || (Ascii.leb "A" a && Ascii.leb a "Z").

Fixpoint all_alnum (s : string) : bool :=
  match s with
  | EmptyString => true
  | String a r => is_alnum a && all_alnum r
  end.

Definition is_snowflake (s : string) : bool :=
  match s with
  | EmptyString => false
  | String "-" EmptyString => false
  | String "-" r => all_alnum r
  | _ => all_alnum s
  end.

End URL.

(** ** JavaScript values *)

(** What [JSON.parse] can produce, plus [undefined] (the result of
    reading a property that is absent).  Numbers are kept abstract.
    An object is the list of its own properties in insertion order. *)
#[warnings="-register-all"]
Inductive JSValue (number : Type) : Type :=
| JUndefined
| JNull
| JBool (b : bool)
| JNumber (n : number)
| JString (s : string)
| JArray (items : list (JSValue number))
| JObject (fields : list (string * JSValue number)).

Arguments JUndefined {number}.
Arguments JNull {number}.
Arguments JBool {number} b.
Arguments JNumber {number} n.
Arguments JString {number} s.
Arguments JArray {number} items.
Arguments JObject {number} fields.

(** The host platform: its numbers, the abstract operation [ToString]
    used by the built-in [Error] constructor ([None] when the conversion
    throws), the values with which [fetch] and [Response.json] reject,
    and the URL parser behind [new Request(input)], which keeps the
    parsed input serialised again: surrounding spaces are stripped, dot
    segments resolved, characters escaped.  All that is assumed of it is
    that the endpoint followed by a snowflake comes back as it is. *)
Class Host : Type := {
  number : Type;
  number_falsy : number -> bool;
  ToString : JSValue number -> option string;
  ToString_string : forall s, ToString (JString s) = Some s;
  Failure : Type;
  serialise_url : string -> string;
  serialise_url_snowflake :
    forall id, URL.is_snowflake id = true ->
      serialise_url ("https://api.lanyard.rest/v1/users/" ++ id)
      = "https://api.lanyard.rest/v1/users/" ++ id
}.

Section Values.
Context {host : Host}.

Definition value : Type := JSValue number.

(** The property names the source reads with a member expression:
    [body.success], [body.data], [body.error], [.message]. *)
Inductive PropName : Type := Psuccess | Pdata | Perror | Pmessage.

Definition prop_key (p : PropName) : string :=
  match p with
  | Psuccess => "success"
  | Pdata => "data"
  | Perror => "error"
  | Pmessage => "message"
  end.

(** Own-property lookup in an object's property list. *)
Fixpoint own_property (fields : list (string * value)) (key : string)
  : option value :=
  match fields with
  | [] => None
  | (k, v) :: rest => if String.eqb k key then Some v
                      else own_property rest key
  end.

(** ToBoolean. *)
Definition ToBoolean (v : value) : bool :=
  match v with
  | JUndefined | JNull => false
  | JBool b => b
  | JNumber n => negb (number_falsy n)
  | JString s => negb (String.eqb s "")
  | JArray _ | JObject _ => true
  end.

(** ** Requests and responses *)

(** [Types.Snowflake]: at run time a string. *)
Definition Snowflake : Type := string.

(** A [Request] as [new Request(input)] leaves it. *)
Record Request : Type := {
  url : string;
  method : string;
  headers : list (string * string);
  request_body : option string
}.

(** [new Request(input)]: the URL is the input as the host serialises
    it; no method, headers or body are given, so the request is a GET
    without headers and without body.  The constructor throws on a text
    that is not a URL; every text [get] passes starts with the endpoint,
    whose scheme and host are valid, and what follows them cannot fail
    to parse. *)
Definition new_Request (input : string) : Request :=
  {| url := serialise_url input;
     method := "GET"; headers := []; request_body := None |}.

(** A [Response]: the [ok] flag and what awaiting [json()] gives. *)
Record Response : Type := {
  ok : bool;
  json_result : Failure + value
}.

(** ** Thrown values *)

(** [class LanyardHTTPError extends Error]: the three public fields and
    the [message] inherited from [Error]. *)
Record LanyardHTTPError : Type := {
  request : Request;
  response : Response;
  body : value;
  message : string
}.

Inductive TypeErrorCause : Type :=
| ReadOfNullish (p : PropName)
| NotConvertible.

(** What can be thrown.  [HostFailure e] is a value [fetch] or
    [Response.json] rejected with, whatever it is (the host's own
    [TypeError] for a network error included); [TypeError] is one
    thrown by a step of the library itself: a property read or the
    conversion of the message in [Error]. *)
Inductive Thrown : Type :=
| HostFailure (e : Failure)
| TypeError (cause : TypeErrorCause)
| HTTPError (err : LanyardHTTPError).

(** ** The monad *)

Inductive Outcome (A : Type) : Type :=
| Returned (a : A)
| Raised (t : Thrown).
Arguments Returned {A} a.
Arguments Raised {A} t.

Definition JS (A : Type) : Type := list Request -> Outcome A * list Request.

Definition ret {A} (a : A) : JS A := fun log => (Returned a, log).
Definition throw {A} (t : Thrown) : JS A := fun log => (Raised t, log).
Definition bind {A B} (m : JS A) (k : A -> JS B) : JS B :=
  fun log =>
    match m log with
    | (Returned a, log') => k a log'
    | (Raised t, log') => (Raised t, log')
    end.

(** A member expression [v.p].  Reading a property of [undefined] or
    [null] throws; a property that is absent reads as [undefined].
    None of the four names is an array index, [length], or defined on
    a built-in prototype, so only objects can answer with a value. *)
Definition member (v : value) (p : PropName) : JS value :=
  match v with
  | JUndefined | JNull => throw (TypeError (ReadOfNullish p))
  | JObject fields =>
      ret (match own_property fields (prop_key p) with
           | Some x => x
           | None => JUndefined
           end)
  | JBool _ | JNumber _ | JString _ | JArray _ => ret JUndefined
  end.

End Values.

Arguments Returned {host A} a.
Arguments Raised {host A} t.

Declare Scope js_scope.
Delimit Scope js_scope with js.
Notation "x <- m ;; k" := (bind m (fun x => k))
  (at level 61, m at next level, right associativity) : js_scope.
Local Open Scope js_scope.

(** ** Namespace [API] of [src/types.ts] *)

Module API.
Section API.
Context {host : Host}.

(** The declared union [EitherAPIResponse<T>]: the payload of the
    successful variant is whatever value stands for [T]. *)
Inductive EitherAPIResponse : Type :=
| SuccessfulAPIResponse (data : value)
| ErroredAPIResponse (message code : string).

(** The object a value of the union is at run time. *)
Definition to_value (b : EitherAPIResponse) : value :=
  match b with
  | SuccessfulAPIResponse d =>
      JObject [("success", JBool true); ("data", d)]
  | ErroredAPIResponse m c =>
      JObject [("success", JBool false);
               ("error", JObject [("message", JString m);
                                  ("code", JString c)])]
  end.

(** The [success] tag of the union. *)
Definition success_tag (b : EitherAPIResponse) : bool :=
  match b with
  | SuccessfulAPIResponse _ => true
  | ErroredAPIResponse _ _ => false
  end.

(** [return response.ok && body.success;]
    [response.ok] is a boolean, so [&&] yields [false] without
    evaluating [body.success] when it is false, and the value of
    [body.success] otherwise. *)
Definition isSuccess (response : Response) (body : value) : JS value :=
  if ok response then member body Psuccess else ret (JBool false).

(** [return !isSuccess(response, body);] *)
Definition isErrored (response : Response) (body : value) : JS value :=
  s <- isSuccess response body ;;
  ret (JBool (negb (ToBoolean s))).

End API.
End API.

(** ** [src/http.ts] *)

Module HTTP.
Section HTTP.
Context {host : Host}.

(** The network behind [fetch]: each request either fails at the
    transport level or is answered by a response. *)
Variable network : Request -> Failure + Response.

(** Awaiting a promise: its value, or its rejection rethrown. *)
Definition await {A} (settled : Failure + A) : JS A :=
  match settled with
  | inl e => throw (HostFailure e)
  | inr a => ret a
  end.

(** [await fetch(request)]: the request is handed to the network. *)
Definition fetch (request : Request) : JS Response :=
  fun log => await (network request) (log ++ [request])%list.

(** [await response.json()] *)
Definition json (response : Response) : JS value :=
  await (json_result response).

(** The built-in [Error(message)]: the message is [ToString(message)]
    unless the argument is [undefined], in which case the instance
    has the prototype's empty message. *)
Definition new_Error (msg : value) : JS string :=
  match msg with
  | JUndefined => ret ""
  | _ => match ToString msg with
         | Some s => ret s
         | None => throw (TypeError NotConvertible)
         end
  end.

(** [constructor(request, response, body) { super(body.error.message); }]
    The argument of [super] is evaluated first; the three parameter
    properties are set once [super] has returned. *)
Definition new_LanyardHTTPError
    (request : Request) (response : Response) (body : value)
  : JS LanyardHTTPError :=
  e <- member body Perror ;;
  m <- member e Pmessage ;;
  text <- new_Error m ;;
  ret {| request := request; response := response; body := body;
         message := text |}.

Definition endpoint : string := "https://api.lanyard.rest/v1/users/".

(** [export async function get(id: Types.Snowflake)] *)
Definition get (id : Snowflake) : JS value :=
  let request := new_Request (endpoint ++ id) in
  response <- fetch request ;;
  body <- json response ;;
  s <- API.isSuccess response body ;;
  if negb (ToBoolean s) then
    err <- new_LanyardHTTPError request response body ;;
    throw (HTTPError err)
  else
    member body Pdata.

End HTTP.

(** The request [get] builds for an identifier, for stating what was
    sent. *)
Definition request_for {host : Host} (id : Snowflake) : Request :=
  new_Request (endpoint ++ id).

End HTTP.

(** ** Reading values without the monad

    The pure content of a member expression and of [Error(message)],
    for stating what the operations do on values of any shape. *)

Section Observations.
Context {host : Host}.

(** [undefined] and [null], the values a property cannot be read from. *)
Definition nullish (v : value) : bool :=
  match v with
  | JUndefined | JNull => true
  | _ => false
  end.

(** What [v.p] yields when [v] is not nullish. *)
Definition read (v : value) (p : PropName) : value :=
  match v with
  | JObject fields =>
      match own_property fields (prop_key p) with
      | Some x => x
      | None => JUndefined
      end
  | _ => JUndefined
  end.

(** The message [Error(m)] gets, [None] when converting [m] throws. *)
Definition error_text (m : value) : option string :=
  match m with
  | JUndefined => Some ""
  | _ => ToString m
  end.

End Observations.

(** ** Namespace [Types] of [src/types.ts]: the nameplate palettes *)

Module Types.

(** [export enum WellKnownNameplatePalettes] *)
Inductive WellKnownNameplatePalettes : Type :=
| NONE | CRIMSON | BERRY | SKY | TEAL | FOREST
| BUBBLE_GUM | VIOLET | COBALT | CLOVER.

(** The string each member stands for at run time. *)
Definition palette_value (p : WellKnownNameplatePalettes) : string :=
  match p with
  | NONE => "none"
  | CRIMSON => "crimson"
  | BERRY => "berry"
  | SKY => "sky"
  | TEAL => "teal"
  | FOREST => "forest"
  | BUBBLE_GUM => "bubble_gum"
  | VIOLET => "violet"
  | COBALT => "cobalt"
  | CLOVER => "clover"
  end.

(** The members in declaration order. *)
Definition members : list WellKnownNameplatePalettes :=
  [NONE; CRIMSON; BERRY; SKY; TEAL; FOREST;
   BUBBLE_GUM; VIOLET; COBALT; CLOVER].

End Types.

(** ** A concrete host

    Natural numbers for numbers, texts for failures, and the usual
    conversion to string of parsed JSON: an array joins its elements
    with commas, a plain object answers ["[object Object]"] unless an
    own [toString] property, never callable in parsed JSON, shadows the
    built-in method. *)

Module Sample.

Definition digits (n : nat) : string :=
  DecimalString.NilZero.string_of_uint (Nat.to_uint n).

Fixpoint to_string (v : JSValue nat) : option string :=
  match v with
  | JUndefined => Some "undefined"
  | JNull => Some "null"
  | JBool b => Some (if b then "true" else "false")
  | JNumber n => Some (digits n)
  | JString s => Some s
  | JArray items =>
      (fix join (l : list (JSValue nat)) : option string :=
         match l with
         | [] => Some ""
         | x :: r =>
             let item := match x with
                         | JUndefined | JNull => Some ""
                         | _ => to_string x
                         end in
             match item, join r with
             | Some a, Some b =>
                 Some (a ++ match r with [] => "" | _ => "," end ++ b)
             | _, _ => None
             end
         end) items
  | JObject fields =>
      if existsb (fun kv => String.eqb (fst kv) "toString") fields
      then None else Some "[object Object]"
  end.

(** The URL parser, as far as it rewrites a text that starts like the
    endpoint: C0 controls and spaces around the text are stripped, and
    the path segments [.] and [..] are resolved.  (Escaping of
    characters is left out.) *)
Definition is_blank (a : ascii) : bool := Ascii.leb a " ".

Fixpoint ltrim (s : string) : string :=
  match s with
  | EmptyString => EmptyString
  | String a r => if is_blank a then ltrim r else s
  end.

Fixpoint rtrim (s : string) : string :=
  match s with
  | EmptyString => EmptyString
  | String a r =>
      match rtrim r with
      | EmptyString => if is_blank a then EmptyString
                       else String a EmptyString
      | r' => String a r'
      end
  end.

(** [done] holds the segments kept so far, last first.  A [..] drops
    the last one kept; a [.] or [..] that ends the path leaves an empty
    last segment. *)
Fixpoint resolve (done todo : list string) : list string :=
  match todo with
  | [] => rev done
  | seg :: rest =>
      let closing := match rest with [] => [EmptyString] | _ => [] end in
      if String.eqb seg ".." then resolve (closing ++ tl done)%list rest
      else if String.eqb seg "." then resolve (closing ++ done)%list rest
      else resolve (seg :: done) rest
  end.

Fixpoint join (segs : list string) : string :=
  match segs with
  | [] => EmptyString
  | seg :: rest => "/" ++ seg ++ join rest
  end.

Definition rewrite_url (u : string) : string :=
  let t := rtrim (ltrim u) in
  match URL.parse t with
  | None => t
  | Some p =>
      "https://" ++ URL.authority p
      ++ match URL.path p with
         | [] => "/"
         | segs => join (resolve [] segs)
         end
      ++ match URL.query p with
         | Some q => "?" ++ q
         | None => EmptyString
         end
      ++ match URL.fragment p with
         | Some f => "#" ++ f
         | None => EmptyString
         end
  end.

(** The endpoint followed by a snowflake has nothing to rewrite. *)
Definition serialise (u : string) : string :=
  match URL.strip_prefix HTTP.endpoint u with
  | Some id => if URL.is_snowflake id then u else rewrite_url u
  | None => rewrite_url u
  end.

Definition serialise_snowflake (id : string)
    (H : URL.is_snowflake id = true)
  : serialise (HTTP.endpoint ++ id) = HTTP.endpoint ++ id :=
  @eq_ind_r bool true
    (fun b : bool =>
       (if b then HTTP.endpoint ++ id
        else rewrite_url (HTTP.endpoint ++ id))
       = HTTP.endpoint ++ id)
    eq_refl (URL.is_snowflake id) H.

Definition host : Host :=
  {| number := nat;
     number_falsy := Nat.eqb 0;
     ToString := to_string;
     ToString_string := fun s => eq_refl;
     Failure := string;
     serialise_url := serialise;
     serialise_url_snowflake := serialise_snowflake |}.

Definition presence : @value host :=
  JObject [("discord_status", JString "online");
           ("listening_to_spotify", JBool false);
           ("activities", JArray [])].

Definition respond (is_ok : bool) (b : @Failure host + @value host)
  : @Response host :=
  {| ok := is_ok; json_result := b |}.

Definition snowflake : Snowflake := "123456789012345678".

Definition success_body : @value host :=
  API.to_value (API.SuccessfulAPIResponse presence).

Definition error_body : @value host :=
  API.to_value (API.ErroredAPIResponse "User not found" "USER_NOT_FOUND").

(** A network that answers every request with the same result. *)
Definition always (r : @Failure host + @Response host)
  : Request -> @Failure host + @Response host :=
  fun _ => r.

Definition reset : @Failure host := "ECONNRESET".
Definition bad_json : @Failure host := "Unexpected token < in JSON".

(** 200 with the presence; 404 with the error body; a non-2xx answer
    that still carries the success-tagged body; answers whose body is
    not JSON. *)
Definition found : @Response host := respond true (inr success_body).
Definition not_found : @Response host := respond false (inr error_body).
Definition refused : @Response host := respond false (inr success_body).
Definition undecodable : @Response host := respond true (inl bad_json).
Definition undecodable_refused : @Response host :=
  respond false (inl bad_json).

End Sample.

(** ** Bodies that are valid JSON but not of the declared union *)

Module Cases.

(** [{ "success": false }] *)
Definition bare_failure : @value Sample.host :=
  JObject [("success", JBool false)].

(** [{ "success": false, "error": { "code": "RATE_LIMITED" } }] *)
Definition no_message : @value Sample.host :=
  JObject [("success", JBool false);
           ("error", JObject [("code", JString "RATE_LIMITED")])].

(** [{ "success": "yes" }] *)
Definition loose_success : @value Sample.host :=
  JObject [("success", JString "yes")].

(** [{ "success": false, "error": { "message": { "toString": 1 } } }] *)
Definition odd_message : @value Sample.host :=
  JObject [("success", JBool false);
           ("error",
            JObject [("message", JObject [("toString", JNumber 1)])])].

Definition answer (is_ok : bool) (b : @value Sample.host)
  : Request -> @Failure Sample.host + @Response Sample.host :=
  Sample.always (inr (Sample.respond is_ok (inr b))).

End Cases.

(** * Properties *)

(** Unfolds the monad and the host-independent steps of a computation. *)
Ltac js_unfold :=
  unfold API.isErrored, API.isSuccess, HTTP.new_LanyardHTTPError,
    HTTP.new_Error, HTTP.json, HTTP.fetch, HTTP.await, member,
    bind, ret, throw in *.

(** ** The response envelope *)

Section Envelope.
Context {host : Host}.

Lemma isSuccess_typed (response : Response) (b : API.EitherAPIResponse)
    (log : list Request) :
  API.isSuccess response (API.to_value b) log
  = (Returned (JBool (ok response && API.success_tag b)), log).
Proof.
  js_unfold. destruct (ok response), b; reflexivity.
Qed.

Lemma isErrored_typed (response : Response) (b : API.EitherAPIResponse)
    (log : list Request) :
  API.isErrored response (API.to_value b) log
  = (Returned (JBool (negb (ok response && API.success_tag b))), log).
Proof.
  unfold API.isErrored, bind. rewrite isSuccess_typed. reflexivity.
Qed.

(** C1. For every response and every body of the declared union,
    [isSuccess] returns a boolean which is [true] exactly when the
    response's [ok] flag is true and the body's [success] tag is true,
    and [false] in every other case. *)
Theorem isSuccess_true_iff_ok_and_tag
    (response : Response) (b : API.EitherAPIResponse) (log : list Request) :
  exists r : bool,
    API.isSuccess response (API.to_value b) log = (Returned (JBool r), log)
    /\ (r = true <-> ok response = true /\ API.success_tag b = true)
    /\ (r = false <-> ~ (ok response = true /\ API.success_tag b = true)).
Proof.
  exists (ok response && API.success_tag b). split.
  - apply isSuccess_typed.
  - rewrite <- andb_true_iff.
    destruct (ok response && API.success_tag b); split; split;
      try reflexivity; try discriminate; intros H; auto.
    exfalso; apply H; reflexivity.
Qed.

(** C5. On every response and body of the declared union [isErrored]
    returns the negation of what [isSuccess] returns: exactly one of
    the two is [true]. *)
Theorem isErrored_is_negation_of_isSuccess
    (response : Response) (b : API.EitherAPIResponse) (log : list Request) :
  exists s e : bool,
    API.isSuccess response (API.to_value b) log = (Returned (JBool s), log)
    /\ API.isErrored response (API.to_value b) log
       = (Returned (JBool e), log)
    /\ e = negb s
    /\ (s = true \/ e = true)
    /\ ~ (s = true /\ e = true).
Proof.
  exists (ok response && API.success_tag b).
  exists (negb (ok response && API.success_tag b)).
  split; [apply isSuccess_typed |].
  split; [apply isErrored_typed |].
  destruct (ok response && API.success_tag b); simpl; intuition discriminate.
Qed.

(** C9. [isSuccess] and [isErrored] are pure and deterministic on the
    declared union: each call returns normally, leaves the state (the
    log of network requests) as it found it, and two calls with equal
    [ok] flags and equal bodies return equal results, whatever else
    differs between the two responses and the two states. *)
Theorem predicates_pure_and_deterministic
    (response1 response2 : Response) (b1 b2 : API.EitherAPIResponse)
    (log1 log2 : list Request)
    (Hok : ok response1 = ok response2) (Hbody : b1 = b2) :
  exists s e : bool,
    API.isSuccess response1 (API.to_value b1) log1
    = (Returned (JBool s), log1)
    /\ API.isSuccess response2 (API.to_value b2) log2
       = (Returned (JBool s), log2)
    /\ API.isErrored response1 (API.to_value b1) log1
       = (Returned (JBool e), log1)
    /\ API.isErrored response2 (API.to_value b2) log2
       = (Returned (JBool e), log2).
Proof.
  subst b2.
  exists (ok response1 && API.success_tag b1).
  exists (negb (ok response1 && API.success_tag b1)).
  rewrite !isSuccess_typed, !isErrored_typed, <- Hok. auto.
Qed.

(** C10. Some response and success-tagged body make [isErrored] return
    [true]: the [ok] flag is false, the body is
    [{ success: true, data }], and that body has no [error] property,
    so [body.error] is [undefined]. *)
Theorem isErrored_true_on_success_tagged_body :
  exists (response : Response) (d : value),
    let b := API.SuccessfulAPIResponse d in
    ok response = false
    /\ API.success_tag b = true
    /\ API.isErrored response (API.to_value b) []
       = (Returned (JBool true), [])
    /\ (exists fields, API.to_value b = JObject fields
                       /\ own_property fields "error" = None)
    /\ member (API.to_value b) Perror [] = (Returned JUndefined, []).
Proof.
  exists {| ok := false; json_result := inr JNull |}, JNull. simpl.
  repeat split.
  eexists; split; reflexivity.
Qed.

End Envelope.

(** ** Characters of an identifier *)

Section Identifier.
Import URL.

Lemma alnum_not_delimiter (a : ascii) :
  is_alnum a = true -> ends_host a = false.
Proof.
  destruct a as [[] [] [] [] [] [] [] []]; (reflexivity || discriminate).
Qed.

Lemma all_alnum_plain (s : string) :
  all_alnum s = true ->
  forall stop : ascii -> bool,
    (forall a, ends_host a = false -> stop a = false) ->
    span stop s = (s, EmptyString).
Proof.
  induction s as [| a r IH]; intros Hd stop Hstop; [reflexivity |].
  simpl in Hd. apply andb_true_iff in Hd. destruct Hd as [Ha Hr].
  simpl. rewrite (Hstop a (alnum_not_delimiter a Ha)).
  rewrite (IH Hr stop Hstop). reflexivity.
Qed.

Lemma all_alnum_one_segment (s : string) :
  all_alnum s = true -> segments s = [s].
Proof.
  induction s as [| a r IH]; intros Hd; [reflexivity |].
  simpl in Hd. apply andb_true_iff in Hd. destruct Hd as [Ha Hr].
  simpl. rewrite (IH Hr).
  pose proof (alnum_not_delimiter a Ha) as Hn.
  unfold ends_host in Hn. apply orb_false_iff in Hn.
  destruct Hn as [Hs _]. rewrite Hs. reflexivity.
Qed.

(** A snowflake is a run of digits and letters, or a minus sign and
    such a run. *)
Lemma is_snowflake_shape (s : string) :
  is_snowflake s = true ->
  all_alnum s = true
  \/ exists r, s = String "-" r /\ all_alnum r = true.
Proof.
  destruct s as [| a r]; [discriminate |].
  destruct (Ascii.eqb_spec a "-") as [-> | Hne].
  - destruct r as [| b r']; [discriminate |].
    intros H. right. exists (String b r'). split; [reflexivity | exact H].
  - intros H. left. revert H. unfold is_snowflake.
    destruct a as [[] [] [] [] [] [] [] []];
      try exact (fun H => H); exfalso; apply Hne; reflexivity.
Qed.

Lemma snowflake_plain (s : string) :
  is_snowflake s = true ->
  forall stop : ascii -> bool,
    (forall a, ends_host a = false -> stop a = false) ->
    span stop s = (s, EmptyString).
Proof.
  intros H stop Hstop.
  destruct (is_snowflake_shape s H) as [Hd | [r [-> Hd]]].
  - apply all_alnum_plain; assumption.
  - simpl. rewrite (Hstop "-"%char eq_refl).
    rewrite (all_alnum_plain r Hd stop Hstop). reflexivity.
Qed.

Lemma snowflake_one_segment (s : string) :
  is_snowflake s = true -> segments s = [s].
Proof.
  intros H.
  destruct (is_snowflake_shape s H) as [Hd | [r [-> Hd]]].
  - apply all_alnum_one_segment; assumption.
  - simpl. rewrite (all_alnum_one_segment r Hd). reflexivity.
Qed.

Lemma snowflake_address (id : string) :
  is_snowflake id = true ->
  parse (HTTP.endpoint ++ id)
  = Some {| authority := "api.lanyard.rest";
            path := ["v1"; "users"; id];
            query := None;
            fragment := None |}.
Proof.
  intros H. unfold parse, HTTP.endpoint. simpl.
  rewrite (snowflake_plain id H ends_path).
  - simpl. rewrite (snowflake_one_segment id H). reflexivity.
  - intros a Ha. unfold ends_host in Ha.
    apply orb_false_iff in Ha. tauto.
Qed.

End Identifier.

(** ** The fetch operation *)

Section Fetch.
Context {host : Host}.
Variable network : Request -> Failure + Response.

(** [get] on a response that was received and decoded. *)
Lemma get_on_body (id : Snowflake) (response : Response) (b : value)
    (log : list Request) :
  network (HTTP.request_for id) = inr response ->
  json_result response = inr b ->
  HTTP.get network id log
  = (s <- API.isSuccess response b ;;
     if negb (ToBoolean s) then
       err <- HTTP.new_LanyardHTTPError (HTTP.request_for id) response b ;;
       throw (HTTPError err)
     else member b Pdata) (log ++ [HTTP.request_for id])%list.
Proof.
  intros Hnet Hjson.
  unfold HTTP.get, HTTP.fetch, HTTP.json, bind at 1 2.
  fold (HTTP.request_for id). rewrite Hnet. simpl. rewrite Hjson. reflexivity.
Qed.

(** C2. When the response's [ok] flag is true and its body decodes to
    [{ success: true, data: d }], [get] resolves to [d] itself. *)
Theorem get_resolves_to_data
    (id : Snowflake) (response : Response) (d : value) :
  network (HTTP.request_for id) = inr response ->
  ok response = true ->
  json_result response = inr (API.to_value (API.SuccessfulAPIResponse d)) ->
  HTTP.get network id [] = (Returned d, [HTTP.request_for id]).
Proof.
  intros Hnet Hok Hjson.
  rewrite (get_on_body id response _ [] Hnet Hjson).
  unfold bind. rewrite isSuccess_typed, Hok. reflexivity.
Qed.

(** C3. When the body decodes to
    [{ success: false, error: { message: m, code: c } }], whatever the
    [ok] flag, [get] throws a [LanyardHTTPError] whose message is [m],
    whose body is the decoded body, with [c] under [error.code], and
    whose request and response are those of the call. *)
Theorem get_throws_error_body
    (id : Snowflake) (received : Response) (m c : string) :
  network (HTTP.request_for id) = inr received ->
  json_result received = inr (API.to_value (API.ErroredAPIResponse m c)) ->
  exists err : LanyardHTTPError,
    HTTP.get network id [] = (Raised (HTTPError err), [HTTP.request_for id])
    /\ message err = m
    /\ body err = API.to_value (API.ErroredAPIResponse m c)
    /\ (exists fields inner,
           body err = JObject fields
           /\ own_property fields "error" = Some (JObject inner)
           /\ own_property inner "code" = Some (JString c))
    /\ request err = HTTP.request_for id
    /\ response err = received.
Proof.
  intros Hnet Hjson.
  exists {| request := HTTP.request_for id; response := received;
            body := API.to_value (API.ErroredAPIResponse m c);
            message := m |}.
  split.
  - rewrite (get_on_body id received _ [] Hnet Hjson).
    unfold bind. rewrite isSuccess_typed, andb_false_r. simpl.
    js_unfold. simpl. rewrite ToString_string. reflexivity.
  - simpl. repeat split. do 2 eexists. repeat split.
Qed.

(** A response whose [ok] flag is false and whose body decodes to
    [{ success: true, data: d }], for any identifier and network.  Building
    the error evaluates [body.error.message]; [body.error] is
    [undefined], so the read of [message] throws a [TypeError] and no
    [LanyardHTTPError] comes into being. *)
Lemma get_not_ok_success_tagged
    (id : Snowflake) (response : Response) (d : value) :
  network (HTTP.request_for id) = inr response ->
  ok response = false ->
  json_result response = inr (API.to_value (API.SuccessfulAPIResponse d)) ->
  HTTP.get network id []
  = (Raised (TypeError (ReadOfNullish Pmessage)), [HTTP.request_for id]).
Proof.
  intros Hnet Hok Hjson.
  rewrite (get_on_body id response _ [] Hnet Hjson).
  unfold bind. rewrite isSuccess_typed, Hok. reflexivity.
Qed.

(** The URL of the request for a snowflake is the endpoint followed by
    the snowflake: the host has nothing to rewrite in it. *)
Lemma request_url_snowflake (id : Snowflake) :
  URL.is_snowflake id = true ->
  url (HTTP.request_for id) = HTTP.endpoint ++ id.
Proof.
  intros H. exact (serialise_url_snowflake id H).
Qed.

(** C6. For every identifier [get] hands exactly one request to the
    network, a GET without headers and without body; for every
    identifier of the declared type, a snowflake, its URL is the
    endpoint followed by the identifier, with the path segments [v1],
    [users] and the identifier, no query and no fragment; for
    ["123456789012345678"] the URL is
    [https://api.lanyard.rest/v1/users/123456789012345678]. *)
Theorem get_issues_one_request (id : Snowflake) (log : list Request) :
  snd (HTTP.get network id log) = (log ++ [HTTP.request_for id])%list
  /\ method (HTTP.request_for id) = "GET"
  /\ headers (HTTP.request_for id) = []
  /\ request_body (HTTP.request_for id) = None
  /\ (URL.is_snowflake id = true ->
      url (HTTP.request_for id) = "https://api.lanyard.rest/v1/users/" ++ id
      /\ URL.parse (url (HTTP.request_for id))
         = Some {| URL.authority := "api.lanyard.rest";
                   URL.path := ["v1"; "users"; id];
                   URL.query := None;
                   URL.fragment := None |})
  /\ url (HTTP.request_for "123456789012345678")
     = "https://api.lanyard.rest/v1/users/123456789012345678".
Proof.
  split; [| split; [reflexivity | split; [reflexivity |
    split; [reflexivity | split]]]].
  - unfold HTTP.get. fold (HTTP.request_for id).
    unfold HTTP.fetch, HTTP.json, HTTP.await, bind at 1 2.
    destruct (network (HTTP.request_for id)) as [e | response];
      [reflexivity |].
    unfold throw, ret at 1.
    destruct (json_result response) as [e | b]; [reflexivity |].
    unfold ret at 1, bind at 1.
    assert (Hs : forall l, snd (API.isSuccess response b l) = l).
    { intros l. js_unfold. destruct (ok response), b; reflexivity. }
    specialize (Hs (log ++ [HTTP.request_for id])%list).
    destruct (API.isSuccess response b _) as [[s | t] l'];
      simpl in Hs; subst l'; [| reflexivity].
    destruct (negb (ToBoolean s)).
    + js_unfold.
      destruct b as [| | | | | |fields]; try reflexivity.
      destruct (own_property fields (prop_key Perror))
        as [[| | | | | |inner] |]; try reflexivity.
      destruct (own_property inner (prop_key Pmessage))
        as [[] |]; try reflexivity;
        match goal with
        | |- context [ToString ?v] => destruct (ToString v); reflexivity
        end.
    + js_unfold. destruct b; reflexivity.
  - intros H. rewrite (request_url_snowflake id H).
    split; [reflexivity | apply snowflake_address; exact H].
  - apply request_url_snowflake. reflexivity.
Qed.

(** C7. When the network rejects the request with [e], [get] rejects
    with [e] itself, not with a [LanyardHTTPError]. *)
Theorem get_rejects_with_transport_failure (id : Snowflake) (e : Failure) :
  network (HTTP.request_for id) = inl e ->
  HTTP.get network id [] = (Raised (HostFailure e), [HTTP.request_for id])
  /\ forall err, HTTP.get network id []
                 <> (Raised (HTTPError err), [HTTP.request_for id]).
Proof.
  intros Hnet.
  assert (H : HTTP.get network id []
              = (Raised (HostFailure e), [HTTP.request_for id])).
  { unfold HTTP.get, HTTP.fetch, bind at 1. fold (HTTP.request_for id).
    rewrite Hnet. reflexivity. }
  split; [exact H |]. intros err. rewrite H. discriminate.
Qed.

(** C8. When decoding the body of the response fails with [e], [get]
    rejects with [e] itself, not with a [LanyardHTTPError]. *)
Theorem get_rejects_with_parse_failure
    (id : Snowflake) (response : Response) (e : Failure) :
  network (HTTP.request_for id) = inr response ->
  json_result response = inl e ->
  HTTP.get network id [] = (Raised (HostFailure e), [HTTP.request_for id])
  /\ forall err, HTTP.get network id []
                 <> (Raised (HTTPError err), [HTTP.request_for id]).
Proof.
  intros Hnet Hjson.
  assert (H : HTTP.get network id []
              = (Raised (HostFailure e), [HTTP.request_for id])).
  { unfold HTTP.get, HTTP.fetch, HTTP.json, bind at 1 2.
    fold (HTTP.request_for id). rewrite Hnet. simpl. rewrite Hjson.
    reflexivity. }
  split; [exact H |]. intros err. rewrite H. discriminate.
Qed.

End Fetch.

(** ** The properties at concrete inputs *)

Section Concrete.

(** At the concrete inputs the host is the sample host. *)
#[local] Existing Instance Sample.host.

Lemma predicates_pure_and_deterministic_witness :
  ok Sample.refused = ok Sample.undecodable_refused
  /\ API.SuccessfulAPIResponse Sample.presence
     = API.SuccessfulAPIResponse Sample.presence
  /\ exists s e : bool,
       API.isSuccess Sample.refused Sample.success_body []
       = (Returned (JBool s), [])
       /\ API.isSuccess Sample.undecodable_refused Sample.success_body
            [HTTP.request_for Sample.snowflake]
          = (Returned (JBool s), [HTTP.request_for Sample.snowflake])
       /\ API.isErrored Sample.refused Sample.success_body []
          = (Returned (JBool e), [])
       /\ API.isErrored Sample.undecodable_refused Sample.success_body
            [HTTP.request_for Sample.snowflake]
          = (Returned (JBool e), [HTTP.request_for Sample.snowflake]).
Proof.
  split; [reflexivity |]. split; [reflexivity |].
  apply (@predicates_pure_and_deterministic Sample.host
           Sample.refused Sample.undecodable_refused
           (API.SuccessfulAPIResponse Sample.presence)
           (API.SuccessfulAPIResponse Sample.presence));
    reflexivity.
Defined.

Lemma get_resolves_to_data_witness :
  Sample.always (inr Sample.found) (HTTP.request_for Sample.snowflake)
  = inr Sample.found
  /\ ok Sample.found = true
  /\ json_result Sample.found
     = inr (API.to_value (API.SuccessfulAPIResponse Sample.presence))
  /\ HTTP.get (Sample.always (inr Sample.found)) Sample.snowflake []
     = (Returned Sample.presence, [HTTP.request_for Sample.snowflake]).
Proof.
  repeat (split; [reflexivity |]).
  apply (@get_resolves_to_data Sample.host (Sample.always (inr Sample.found))
           Sample.snowflake Sample.found);
    reflexivity.
Defined.

Lemma get_throws_error_body_witness :
  Sample.always (inr Sample.not_found) (HTTP.request_for Sample.snowflake)
  = inr Sample.not_found
  /\ json_result Sample.not_found
     = inr (API.to_value
              (API.ErroredAPIResponse "User not found" "USER_NOT_FOUND"))
  /\ exists err : LanyardHTTPError,
       HTTP.get (Sample.always (inr Sample.not_found)) Sample.snowflake []
       = (Raised (HTTPError err), [HTTP.request_for Sample.snowflake])
       /\ message err = "User not found"
       /\ body err = Sample.error_body
       /\ (exists fields inner,
              body err = JObject fields
              /\ own_property fields "error" = Some (JObject inner)
              /\ own_property inner "code" = Some (JString "USER_NOT_FOUND"))
       /\ request err = HTTP.request_for Sample.snowflake
       /\ response err = Sample.not_found.
Proof.
  repeat (split; [reflexivity |]).
  apply (@get_throws_error_body Sample.host
           (Sample.always (inr Sample.not_found))
           Sample.snowflake Sample.not_found);
    reflexivity.
Defined.

Lemma get_issues_one_request_witness :
  URL.is_snowflake Sample.snowflake = true
  /\ snd (HTTP.get (Sample.always (inl Sample.reset)) Sample.snowflake [])
     = [HTTP.request_for Sample.snowflake]
  /\ url (HTTP.request_for Sample.snowflake)
     = "https://api.lanyard.rest/v1/users/123456789012345678"
  /\ URL.parse (url (HTTP.request_for Sample.snowflake))
     = Some {| URL.authority := "api.lanyard.rest";
               URL.path := ["v1"; "users"; Sample.snowflake];
               URL.query := None;
               URL.fragment := None |}.
Proof.
  split; [reflexivity |].
  pose proof (@get_issues_one_request Sample.host
                (Sample.always (inl Sample.reset)) Sample.snowflake [])
    as [Hlog [_ [_ [_ [Hurl _]]]]].
  split; [exact Hlog | apply Hurl; reflexivity].
Defined.

Lemma get_rejects_with_transport_failure_witness :
  Sample.always (inl Sample.reset) (HTTP.request_for Sample.snowflake)
  = inl Sample.reset
  /\ HTTP.get (Sample.always (inl Sample.reset)) Sample.snowflake []
     = (Raised (HostFailure Sample.reset),
        [HTTP.request_for Sample.snowflake]).
Proof.
  split; [reflexivity |].
  apply (@get_rejects_with_transport_failure Sample.host
           (Sample.always (inl Sample.reset)) Sample.snowflake Sample.reset).
  reflexivity.
Defined.

Lemma get_rejects_with_parse_failure_witness :
  Sample.always (inr Sample.undecodable) (HTTP.request_for Sample.snowflake)
  = inr Sample.undecodable
  /\ json_result Sample.undecodable = inl Sample.bad_json
  /\ HTTP.get (Sample.always (inr Sample.undecodable)) Sample.snowflake []
     = (Raised (HostFailure Sample.bad_json),
        [HTTP.request_for Sample.snowflake]).
Proof.
  repeat (split; [reflexivity |]).
  apply (@get_rejects_with_parse_failure Sample.host
           (Sample.always (inr Sample.undecodable))
           Sample.snowflake Sample.undecodable Sample.bad_json);
    reflexivity.
Defined.

(** C4, evaluated.  The response has a false [ok] flag and the body
    [{ success: true, data }].  [get] does not return the data, and it
    does not throw a [LanyardHTTPError] either: evaluating
    [body.error.message] for the constructor throws a [TypeError]. *)
Theorem get_not_ok_success_body_raises_type_error :
  HTTP.get (Sample.always (inr Sample.refused)) Sample.snowflake []
  = (Raised (TypeError (ReadOfNullish Pmessage)),
     [HTTP.request_for Sample.snowflake])
  /\ (forall err : LanyardHTTPError,
        fst (HTTP.get (Sample.always (inr Sample.refused)) Sample.snowflake [])
        <> Raised (HTTPError err))
  /\ (forall d : value,
        fst (HTTP.get (Sample.always (inr Sample.refused)) Sample.snowflake [])
        <> Returned d).
Proof.
  assert (H : HTTP.get (Sample.always (inr Sample.refused)) Sample.snowflake []
              = (Raised (TypeError (ReadOfNullish Pmessage)),
                 [HTTP.request_for Sample.snowflake])).
  { apply (@get_not_ok_success_tagged Sample.host
             (Sample.always (inr Sample.refused)) Sample.snowflake
             Sample.refused Sample.presence); reflexivity. }
  split; [exact H |]. rewrite H. split; intros; discriminate.
Qed.

End Concrete.

(** * Bodies of any shape

    [response.json()] is cast to the declared union without a check, so
    the operations also meet values outside it.  What they do there. *)

Section AnyValue.
Context {host : Host}.

Lemma member_read (v : value) (p : PropName) (log : list Request) :
  member v p log
  = (if nullish v then Raised (TypeError (ReadOfNullish p))
     else Returned (read v p), log).
Proof. destruct v; reflexivity. Qed.

Lemma new_Error_text (m : value) (log : list Request) :
  HTTP.new_Error m log
  = (match error_text m with
     | Some text => Returned text
     | None => Raised (TypeError NotConvertible)
     end, log).
Proof.
  unfold HTTP.new_Error, error_text, ret, throw.
  destruct m; try reflexivity;
    match goal with
    | |- context [ToString ?v] => destruct (ToString v); reflexivity
    end.
Qed.

Lemma isSuccess_read (received : Response) (b : value) (log : list Request) :
  API.isSuccess received b log
  = (if ok received
     then if nullish b then Raised (TypeError (ReadOfNullish Psuccess))
          else Returned (read b Psuccess)
     else Returned (JBool false), log).
Proof.
  unfold API.isSuccess. destruct (ok received); [| reflexivity].
  rewrite member_read. destruct (nullish b); reflexivity.
Qed.

(** X1. [isSuccess] throws exactly when the [ok] flag is true and the body
    is [null] or [undefined]; what it throws is the [TypeError] of
    reading [success]; with a false [ok] flag the body is not looked
    at.  It never touches the log of network requests. *)
Theorem isSuccess_raises_iff_ok_and_nullish
    (received : Response) (b : value) (log : list Request) :
  snd (API.isSuccess received b log) = log
  /\ ((exists t, fst (API.isSuccess received b log) = Raised t)
      <-> ok received = true /\ nullish b = true)
  /\ (forall t, fst (API.isSuccess received b log) = Raised t ->
                t = TypeError (ReadOfNullish Psuccess)).
Proof.
  rewrite isSuccess_read. simpl. split; [reflexivity |].
  destruct (ok received), (nullish b); simpl; split;
    try (split; [intros [t H]; discriminate H | intros [H1 H2]; discriminate]);
    try (intros t H; discriminate H).
  - split; [auto | intros _; eexists; reflexivity].
  - intros t H. injection H as <-. reflexivity.
Qed.

(** X2. With a true [ok] flag [isSuccess] hands back the body's own
    [success] property as it is, not a boolean made from it, and
    [undefined] when the object has no such property. *)
Theorem isSuccess_returns_success_uncoerced
    (received : Response) (fields : list (string * value))
    (log : list Request) :
  ok received = true ->
  API.isSuccess received (JObject fields) log
  = (Returned (match own_property fields "success" with
               | Some v => v
               | None => JUndefined
               end), log).
Proof.
  intros Hok. rewrite isSuccess_read, Hok. reflexivity.
Qed.

(** X3. On every value [isErrored] returns a boolean whenever it returns,
    namely the negation of the truthiness of what [isSuccess] returns,
    and it throws exactly what [isSuccess] throws. *)
Theorem isErrored_negates_truthiness
    (received : Response) (b : value) (log : list Request) :
  snd (API.isErrored received b log) = log
  /\ (forall v, fst (API.isErrored received b log) = Returned v ->
        exists s, fst (API.isSuccess received b log) = Returned s
                  /\ v = JBool (negb (ToBoolean s)))
  /\ (forall t, fst (API.isErrored received b log) = Raised t
                <-> fst (API.isSuccess received b log) = Raised t).
Proof.
  unfold API.isErrored, bind. rewrite isSuccess_read.
  destruct (ok received); [destruct (nullish b) |]; simpl;
    (split; [reflexivity |]); split;
    try (intros v H; discriminate H);
    try (intros v H; injection H as <-; eexists; split; reflexivity);
    intros t; split; intros H; try discriminate H; exact H.
Qed.

End AnyValue.

Section FetchAnyValue.
Context {host : Host}.
Variable network : Request -> Failure + Response.

(** The outcome of [get] once a response was received and decoded. *)
Lemma get_after_decoding
    (id : Snowflake) (received : Response) (b : value) (log : list Request) :
  network (HTTP.request_for id) = inr received ->
  json_result received = inr b ->
  HTTP.get network id log
  = (if nullish b then
       Raised (TypeError (ReadOfNullish
                            (if ok received then Psuccess else Perror)))
     else if ok received && ToBoolean (read b Psuccess) then
       Returned (read b Pdata)
     else if nullish (read b Perror) then
       Raised (TypeError (ReadOfNullish Pmessage))
     else
       match error_text (read (read b Perror) Pmessage) with
       | Some text =>
           Raised (HTTPError {| request := HTTP.request_for id;
                                response := received;
                                body := b;
                                message := text |})
       | None => Raised (TypeError NotConvertible)
       end,
     (log ++ [HTTP.request_for id])%list).
Proof.
  intros Hnet Hjson.
  rewrite (get_on_body network id received b log Hnet Hjson).
  unfold bind at 1. rewrite isSuccess_read.
  assert (Hctor : forall l,
    (err <- HTTP.new_LanyardHTTPError (HTTP.request_for id) received b ;;
     throw (A:=value) (HTTPError err)) l
    = (if nullish b then Raised (TypeError (ReadOfNullish Perror))
       else if nullish (read b Perror) then
         Raised (TypeError (ReadOfNullish Pmessage))
       else
         match error_text (read (read b Perror) Pmessage) with
         | Some text =>
             Raised (HTTPError {| request := HTTP.request_for id;
                                  response := received;
                                  body := b;
                                  message := text |})
         | None => Raised (TypeError NotConvertible)
         end, l)).
  { intros l. unfold HTTP.new_LanyardHTTPError, bind.
    rewrite member_read. destruct (nullish b); [reflexivity |].
    rewrite member_read. destruct (nullish (read b Perror)); [reflexivity |].
    rewrite new_Error_text.
    destruct (error_text (read (read b Perror) Pmessage)); reflexivity. }
  destruct (ok received); simpl.
  - destruct (nullish b) eqn:Hb; [reflexivity |].
    destruct (ToBoolean (read b Psuccess)); simpl.
    + rewrite member_read, Hb. reflexivity.
    + rewrite Hctor. reflexivity.
  - rewrite Hctor. destruct (nullish b); reflexivity.
Qed.

(** The outcome of [get] in every case. *)
Lemma get_cases (id : Snowflake) (log : list Request) :
  (exists e, network (HTTP.request_for id) = inl e
             /\ HTTP.get network id log
                = (Raised (HostFailure e),
                   (log ++ [HTTP.request_for id])%list))
  \/ (exists received e,
         network (HTTP.request_for id) = inr received
         /\ json_result received = inl e
         /\ HTTP.get network id log
            = (Raised (HostFailure e),
               (log ++ [HTTP.request_for id])%list))
  \/ (exists received b,
         network (HTTP.request_for id) = inr received
         /\ json_result received = inr b).
Proof.
  destruct (network (HTTP.request_for id)) as [e | received] eqn:Hnet.
  - left. exists e. split; [reflexivity |].
    unfold HTTP.get, HTTP.fetch, bind at 1.
    fold (HTTP.request_for id). rewrite Hnet. reflexivity.
  - right. destruct (json_result received) as [e | b] eqn:Hjson.
    + left. exists received, e. repeat split; try assumption.
      unfold HTTP.get, HTTP.fetch, HTTP.json, bind at 1 2.
      fold (HTTP.request_for id). rewrite Hnet. simpl. rewrite Hjson.
      reflexivity.
    + right. exists received, b. split; [reflexivity | assumption].
Qed.

(** Splits a goal about the outcome of [get] into its cases. *)
Ltac get_outcome id log H :=
  destruct (get_cases id log)
    as [[?e [?Hnet ?Hget]]
       | [[?received [?e [?Hnet [?Hjson ?Hget]]]]
         | [?received [?b [?Hnet ?Hjson]]]]];
  [ rewrite Hget in H
  | rewrite Hget in H
  | rewrite (get_after_decoding id _ _ log Hnet Hjson) in H ].

(** X4. When [get] resolves, the network answered with a response whose
    [ok] flag is true, the decoded body is not nullish, its [success]
    property is truthy, and the value resolved to is the body's [data]
    property ([undefined] if it has none).  So no data comes back from
    a response that is not ok or from a body without a truthy tag. *)
Theorem get_resolves_only_on_success
    (id : Snowflake) (log log' : list Request) (d : value) :
  HTTP.get network id log = (Returned d, log') ->
  exists received b,
    network (HTTP.request_for id) = inr received
    /\ json_result received = inr b
    /\ ok received = true
    /\ nullish b = false
    /\ ToBoolean (read b Psuccess) = true
    /\ d = read b Pdata
    /\ log' = (log ++ [HTTP.request_for id])%list.
Proof.
  intros H. get_outcome id log H; try discriminate H.
  exists received, b. split; [assumption |]. split; [assumption |].
  destruct (nullish b); [discriminate H |].
  destruct (ok received); simpl in H.
  - destruct (ToBoolean (read b Psuccess)).
    + injection H as <- <-. repeat split.
    + destruct (nullish (read b Perror)); [discriminate H |].
      destruct (error_text _); discriminate H.
  - destruct (nullish (read b Perror)); [discriminate H |].
    destruct (error_text _); discriminate H.
Qed.

(** X5. A [LanyardHTTPError] thrown by [get] carries the request of the
    call, the response the network gave and the body decoded from it;
    the response was not ok or the body's [success] was falsy; the body
    has a non-nullish [error], and the error's message is the text
    [Error] makes of [error.message]. *)
Theorem get_structured_error_carries_call
    (id : Snowflake) (log log' : list Request) (err : LanyardHTTPError) :
  HTTP.get network id log = (Raised (HTTPError err), log') ->
  request err = HTTP.request_for id
  /\ network (HTTP.request_for id) = inr (response err)
  /\ json_result (response err) = inr (body err)
  /\ (ok (response err) = false
      \/ ToBoolean (read (body err) Psuccess) = false)
  /\ nullish (body err) = false
  /\ nullish (read (body err) Perror) = false
  /\ error_text (read (read (body err) Perror) Pmessage)
     = Some (message err)
  /\ log' = (log ++ [HTTP.request_for id])%list.
Proof.
  intros H. get_outcome id log H; try discriminate H.
  destruct (nullish b) eqn:Hb; [discriminate H |].
  destruct (ok received) eqn:Hok; simpl in H.
  - destruct (ToBoolean (read b Psuccess)) eqn:Hs; [discriminate H |].
    destruct (nullish (read b Perror)) eqn:He; [discriminate H |].
    destruct (error_text _) eqn:Ht; [| discriminate H].
    injection H as <- <-. simpl. rewrite Hok, Hb, He. auto 10.
  - destruct (nullish (read b Perror)) eqn:He; [discriminate H |].
    destruct (error_text _) eqn:Ht; [| discriminate H].
    injection H as <- <-. simpl. rewrite Hok, Hb, He. auto 10.
Qed.

(** X6. [get] rejects with a failure of the host only when [fetch] rejected
    with it or [response.json()] did. *)
Theorem get_host_failure_only_from_host
    (id : Snowflake) (log log' : list Request) (e : Failure) :
  HTTP.get network id log = (Raised (HostFailure e), log') ->
  network (HTTP.request_for id) = inl e
  \/ exists received,
       network (HTTP.request_for id) = inr received
       /\ json_result received = inl e.
Proof.
  intros H. get_outcome id log H.
  - injection H as <- _. left. assumption.
  - injection H as <- _. right. exists received. split; assumption.
  - exfalso.
    destruct (nullish b); [discriminate H |].
    destruct (ok received && ToBoolean (read b Psuccess));
      [discriminate H |].
    destruct (nullish (read b Perror)); [discriminate H |].
    destruct (error_text _); discriminate H.
Qed.

(** X7. The [TypeError]s thrown by [get]'s own steps, as opposed to
    the rejections of [fetch] and [json()] that it passes on (which are
    [HostFailure]s here, also when the host rejects with a [TypeError]
    of its own).  Such an error is thrown only after [fetch] and
    [json()] have both resolved, and it comes from reading [success]
    of a nullish body under a true [ok] flag; from reading [error] of
    a nullish body under a false one; from reading [message] of a
    nullish [error]; or from [Error] failing to convert the message.
    Reading [data] never throws. *)
Theorem get_type_error_causes
    (id : Snowflake) (log log' : list Request) (cause : TypeErrorCause) :
  HTTP.get network id log = (Raised (TypeError cause), log') ->
  exists received b,
    network (HTTP.request_for id) = inr received
    /\ json_result received = inr b
    /\ match cause with
       | ReadOfNullish Psuccess => ok received = true /\ nullish b = true
       | ReadOfNullish Perror => ok received = false /\ nullish b = true
       | ReadOfNullish Pmessage =>
           nullish b = false /\ nullish (read b Perror) = true
       | ReadOfNullish Pdata => False
       | NotConvertible =>
           nullish b = false
           /\ nullish (read b Perror) = false
           /\ error_text (read (read b Perror) Pmessage) = None
       end.
Proof.
  intros H. get_outcome id log H; try discriminate H.
  exists received, b. split; [assumption |]. split; [assumption |].
  destruct (nullish b) eqn:Hb.
  - destruct (ok received); injection H as <- _; auto.
  - destruct (ok received && ToBoolean (read b Psuccess));
      [discriminate H |].
    destruct (nullish (read b Perror)) eqn:He.
    + injection H as <- _. auto.
    + destruct (error_text _) eqn:Ht; [discriminate H |].
      injection H as <- _. auto.
Qed.

(** X8. A body that is not nullish but has no [error] to read ([error]
    absent or [null], or the body not an object), on a response that is
    not ok or with a falsy [success]: [get] throws the [TypeError] of
    reading [message], not a [LanyardHTTPError]. *)
Theorem get_without_error_property_raises_type_error
    (id : Snowflake) (received : Response) (b : value) (log : list Request) :
  network (HTTP.request_for id) = inr received ->
  json_result received = inr b ->
  nullish b = false ->
  nullish (read b Perror) = true ->
  ok received = false \/ ToBoolean (read b Psuccess) = false ->
  HTTP.get network id log
  = (Raised (TypeError (ReadOfNullish Pmessage)),
     (log ++ [HTTP.request_for id])%list).
Proof.
  intros Hnet Hjson Hb He Hfail.
  rewrite (get_after_decoding id received b log Hnet Hjson), Hb, He.
  destruct Hfail as [-> | ->]; [| rewrite andb_false_r]; reflexivity.
Qed.

(** X9. An [error] without a [message] property, on a response that is not
    ok or with a falsy [success]: [get] throws a [LanyardHTTPError]
    whose message is the empty string. *)
Theorem get_error_without_message_has_empty_message
    (id : Snowflake) (received : Response) (b : value) (log : list Request) :
  network (HTTP.request_for id) = inr received ->
  json_result received = inr b ->
  nullish b = false ->
  nullish (read b Perror) = false ->
  read (read b Perror) Pmessage = JUndefined ->
  ok received = false \/ ToBoolean (read b Psuccess) = false ->
  HTTP.get network id log
  = (Raised (HTTPError {| request := HTTP.request_for id;
                          response := received;
                          body := b;
                          message := "" |}),
     (log ++ [HTTP.request_for id])%list).
Proof.
  intros Hnet Hjson Hb He Hm Hfail.
  rewrite (get_after_decoding id received b log Hnet Hjson), Hb, He, Hm.
  destruct Hfail as [-> | ->]; [| rewrite andb_false_r]; reflexivity.
Qed.

(** X10. A true [ok] flag and a truthy [success], boolean or not: [get]
    resolves to the body's [data] property, and to [undefined] when the
    body has none. *)
Theorem get_resolves_on_truthy_success
    (id : Snowflake) (received : Response) (b : value) (log : list Request) :
  network (HTTP.request_for id) = inr received ->
  json_result received = inr b ->
  ok received = true ->
  nullish b = false ->
  ToBoolean (read b Psuccess) = true ->
  HTTP.get network id log
  = (Returned (read b Pdata), (log ++ [HTTP.request_for id])%list).
Proof.
  intros Hnet Hjson Hok Hb Hs.
  rewrite (get_after_decoding id received b log Hnet Hjson), Hb, Hok, Hs.
  reflexivity.
Qed.

(** X11. A body that decodes to [null]: [get] throws a [TypeError], from
    reading [success] when the response is ok and from reading [error]
    in the constructor of the error when it is not. *)
Theorem get_on_null_body
    (id : Snowflake) (received : Response) (log : list Request) :
  network (HTTP.request_for id) = inr received ->
  json_result received = inr JNull ->
  HTTP.get network id log
  = (Raised (TypeError (ReadOfNullish
                          (if ok received then Psuccess else Perror))),
     (log ++ [HTTP.request_for id])%list).
Proof.
  intros Hnet Hjson.
  rewrite (get_after_decoding id received JNull log Hnet Hjson).
  reflexivity.
Qed.

(** X12. [get] and [isErrored] agree: when [isErrored] returns on the
    response and body that [get] received, [get] resolves exactly when
    [isErrored] returned [false]. *)
Theorem get_resolves_iff_not_errored
    (id : Snowflake) (received : Response) (b : value)
    (log l : list Request) (e : bool) :
  network (HTTP.request_for id) = inr received ->
  json_result received = inr b ->
  API.isErrored received b l = (Returned (JBool e), l) ->
  (e = false <-> exists d, fst (HTTP.get network id log) = Returned d).
Proof.
  intros Hnet Hjson He.
  rewrite (get_after_decoding id received b log Hnet Hjson).
  unfold API.isErrored, bind in He. rewrite isSuccess_read in He.
  simpl.
  destruct (ok received); simpl in *.
  - destruct (nullish b); [discriminate He |].
    unfold ret in He. injection He as <-.
    destruct (ToBoolean (read b Psuccess)); simpl.
    + split; [intros _; eexists; reflexivity | reflexivity].
    + split; [discriminate |]. intros [d H].
      destruct (nullish (read b Perror)); [discriminate H |].
      destruct (error_text _); discriminate H.
  - unfold ret in He. injection He as <-. split; [discriminate |].
    intros [d H]. destruct (nullish b); [discriminate H |].
    destruct (nullish (read b Perror)); [discriminate H |].
    destruct (error_text _); discriminate H.
Qed.

End FetchAnyValue.

(** ** Identifiers and requests *)

Section Addressing.
Context {host : Host}.

Lemma append_injective (p a b : string) : p ++ a = p ++ b -> a = b.
Proof.
  induction p as [| c p IH]; simpl; intros H; [exact H |].
  injection H as H. exact (IH H).
Qed.

(** X13. Different snowflakes are asked for with different requests. *)
Theorem request_for_injective (a b : Snowflake) :
  URL.is_snowflake a = true ->
  URL.is_snowflake b = true ->
  HTTP.request_for a = HTTP.request_for b -> a = b.
Proof.
  intros Ha Hb H. apply (f_equal url) in H.
  rewrite (request_url_snowflake a Ha) in H.
  rewrite (request_url_snowflake b Hb) in H.
  exact (append_injective HTTP.endpoint a b H).
Qed.

End Addressing.

(** ** The nameplate palettes *)

Section Palettes.
Import Types.

(** X14. The ten well-known palettes stand for ten different strings, none
    of them empty, and [members] lists every palette. *)
Theorem palette_values_distinct :
  NoDup (map palette_value members)
  /\ (forall p, In p members)
  /\ (forall p, palette_value p <> "")
  /\ (forall p q, palette_value p = palette_value q -> p = q).
Proof.
  split; [| split; [| split]].
  - unfold members. simpl.
    repeat (constructor;
            [simpl; intros H;
             repeat (destruct H as [H | H]; [discriminate H |]);
             exact H |]).
    constructor.
  - intros p. destruct p; simpl; auto 11.
  - intros p. destruct p; discriminate.
  - intros p q. destruct p, q; simpl; intros H;
      (reflexivity || discriminate H).
Qed.

End Palettes.

(** ** The sample host's URL parser *)

Section SampleParser.
Import URL.

Lemma append_empty (s : string) : s ++ "" = s.
Proof.
  induction s as [| a r IH]; [reflexivity |]. simpl. rewrite IH. reflexivity.
Qed.

Lemma strip_prefix_append (p s r : string) :
  strip_prefix p s = Some r -> s = p ++ r.
Proof.
  revert s. induction p as [| a p IH]; intros s H.
  - injection H as ->. reflexivity.
  - destruct s as [| b s]; [discriminate H |]. simpl in H.
    destruct (Ascii.eqb_spec a b) as [-> | _]; [| discriminate H].
    simpl. rewrite (IH s H). reflexivity.
Qed.

Lemma alnum_not_blank (a : ascii) :
  is_alnum a = true -> Sample.is_blank a = false.
Proof.
  destruct a as [[] [] [] [] [] [] [] []]; (reflexivity || discriminate).
Qed.

Lemma alnum_not_dot (a : ascii) :
  is_alnum a = true -> Ascii.eqb a "." = false.
Proof.
  destruct a as [[] [] [] [] [] [] [] []]; (reflexivity || discriminate).
Qed.

Lemma rtrim_step (a : ascii) (r : string) :
  Sample.is_blank a = false -> Sample.rtrim r = r ->
  Sample.rtrim (String a r) = String a r.
Proof.
  intros Ha Hr. simpl. rewrite Hr, Ha. destruct r; reflexivity.
Qed.

Lemma rtrim_alnum (s : string) :
  all_alnum s = true -> Sample.rtrim s = s.
Proof.
  induction s as [| a r IH]; intros H; [reflexivity |].
  simpl in H. apply andb_true_iff in H. destruct H as [Ha Hr].
  apply rtrim_step; [apply alnum_not_blank; exact Ha | exact (IH Hr)].
Qed.

Lemma rtrim_snowflake (id : string) :
  is_snowflake id = true -> Sample.rtrim id = id.
Proof.
  intros H. destruct (is_snowflake_shape id H) as [Hd | [r [-> Hd]]].
  - apply rtrim_alnum; exact Hd.
  - apply rtrim_step; [reflexivity | apply rtrim_alnum; exact Hd].
Qed.

Lemma snowflake_not_dots (id : string) :
  is_snowflake id = true ->
  String.eqb id ".." = false /\ String.eqb id "." = false.
Proof.
  intros H. destruct (is_snowflake_shape id H) as [Hd | [r [-> Hd]]].
  - destruct id as [| a r]; [discriminate H |].
    simpl in Hd. apply andb_true_iff in Hd. destruct Hd as [Ha _].
    simpl. rewrite (alnum_not_dot a Ha). split; reflexivity.
  - split; reflexivity.
Qed.

(** Rewriting leaves the endpoint followed by a snowflake as it is. *)
Lemma rewrite_url_snowflake (id : string) :
  is_snowflake id = true ->
  Sample.rewrite_url (HTTP.endpoint ++ id) = HTTP.endpoint ++ id.
Proof.
  intros H. unfold Sample.rewrite_url.
  assert (Htrim : Sample.rtrim (Sample.ltrim (HTTP.endpoint ++ id))
                  = HTTP.endpoint ++ id).
  { unfold HTTP.endpoint. simpl Sample.ltrim. simpl append.
    repeat (apply rtrim_step; [reflexivity |]).
    apply rtrim_snowflake; exact H. }
  rewrite Htrim, (snowflake_address id H).
  destruct (snowflake_not_dots id H) as [H2 H1].
  simpl. rewrite H2, H1. simpl. rewrite !append_empty. reflexivity.
Qed.

(** So the sample parser is [rewrite_url] on every text. *)
Lemma serialise_is_rewrite_url (u : string) :
  Sample.serialise u = Sample.rewrite_url u.
Proof.
  unfold Sample.serialise.
  destruct (strip_prefix HTTP.endpoint u) as [id |] eqn:Hp; [| reflexivity].
  destruct (is_snowflake id) eqn:Hs; [| reflexivity].
  rewrite (strip_prefix_append _ _ _ Hp). symmetry.
  apply rewrite_url_snowflake; exact Hs.
Qed.

(** Outside the snowflakes the parser does rewrite, and different
    texts can lead to one request: a lone dot is resolved away and a
    trailing space is stripped. *)
Lemma request_for_merges_other_texts :
  @HTTP.request_for Sample.host "." = @HTTP.request_for Sample.host ""
  /\ @HTTP.request_for Sample.host "123 " = @HTTP.request_for Sample.host "123"
  /\ url (@HTTP.request_for Sample.host ".")
     = "https://api.lanyard.rest/v1/users/".
Proof. repeat split. Qed.

End SampleParser.

(** ** These properties at concrete inputs *)

Section ConcreteAnyValue.

#[local] Existing Instance Sample.host.

Lemma isSuccess_raises_iff_ok_and_nullish_witness :
  ok Sample.found = true /\ nullish (JNull : @value Sample.host) = true
  /\ exists t, fst (API.isSuccess Sample.found JNull []) = Raised t.
Proof.
  split; [reflexivity |]. split; [reflexivity |].
  apply (proj2 (proj1 (proj2
    (@isSuccess_raises_iff_ok_and_nullish Sample.host Sample.found JNull [])))).
  split; reflexivity.
Defined.

Lemma isSuccess_returns_success_uncoerced_witness :
  ok Sample.found = true
  /\ API.isSuccess Sample.found Cases.loose_success []
     = (Returned (JString "yes"), []).
Proof.
  split; [reflexivity |].
  apply (@isSuccess_returns_success_uncoerced Sample.host Sample.found
           [("success", JString "yes")] []).
  reflexivity.
Defined.

Lemma isErrored_negates_truthiness_witness :
  fst (API.isErrored Sample.found Cases.loose_success [])
  = Returned (JBool false)
  /\ exists s : @value Sample.host,
       fst (API.isSuccess Sample.found Cases.loose_success []) = Returned s
       /\ (JBool false : @value Sample.host)
          = JBool (negb (ToBoolean s)).
Proof.
  split; [reflexivity |].
  apply (proj1 (proj2
    (@isErrored_negates_truthiness Sample.host Sample.found
       Cases.loose_success []))).
  reflexivity.
Defined.

Lemma get_resolves_only_on_success_witness :
  HTTP.get (Sample.always (inr Sample.found)) Sample.snowflake []
  = (Returned Sample.presence, [HTTP.request_for Sample.snowflake])
  /\ exists received b,
       Sample.always (inr Sample.found) (HTTP.request_for Sample.snowflake)
       = inr received
       /\ json_result received = inr b
       /\ ok received = true
       /\ nullish b = false
       /\ ToBoolean (read b Psuccess) = true
       /\ Sample.presence = read b Pdata
       /\ [HTTP.request_for Sample.snowflake]
          = ([] ++ [HTTP.request_for Sample.snowflake])%list.
Proof.
  split; [reflexivity |].
  apply (@get_resolves_only_on_success Sample.host
           (Sample.always (inr Sample.found)) Sample.snowflake []).
  reflexivity.
Defined.

Lemma get_structured_error_carries_call_witness :
  HTTP.get (Sample.always (inr Sample.not_found)) Sample.snowflake []
  = (Raised (HTTPError {| request := HTTP.request_for Sample.snowflake;
                          response := Sample.not_found;
                          body := Sample.error_body;
                          message := "User not found" |}),
     [HTTP.request_for Sample.snowflake])
  /\ Sample.always (inr Sample.not_found) (HTTP.request_for Sample.snowflake)
     = inr Sample.not_found
  /\ error_text (read (read Sample.error_body Perror) Pmessage)
     = Some "User not found".
Proof.
  split; [reflexivity |].
  pose proof (@get_structured_error_carries_call Sample.host
                (Sample.always (inr Sample.not_found)) Sample.snowflake
                [] [HTTP.request_for Sample.snowflake]
                {| request := HTTP.request_for Sample.snowflake;
                   response := Sample.not_found;
                   body := Sample.error_body;
                   message := "User not found" |} eq_refl)
    as [_ [Hnet [_ [_ [_ [_ [Htext _]]]]]]].
  split; [exact Hnet | exact Htext].
Defined.

Lemma get_host_failure_only_from_host_witness :
  HTTP.get (Sample.always (inl Sample.reset)) Sample.snowflake []
  = (Raised (HostFailure Sample.reset), [HTTP.request_for Sample.snowflake])
  /\ (Sample.always (inl Sample.reset) (HTTP.request_for Sample.snowflake)
      = inl Sample.reset
      \/ exists received,
           Sample.always (inl Sample.reset)
             (HTTP.request_for Sample.snowflake) = inr received
           /\ json_result received = inl Sample.reset).
Proof.
  split; [reflexivity |].
  apply (@get_host_failure_only_from_host Sample.host
           (Sample.always (inl Sample.reset)) Sample.snowflake
           [] [HTTP.request_for Sample.snowflake]).
  reflexivity.
Defined.

Lemma get_type_error_causes_witness :
  HTTP.get (Cases.answer false Cases.odd_message) Sample.snowflake []
  = (Raised (TypeError NotConvertible), [HTTP.request_for Sample.snowflake])
  /\ exists received b,
       Cases.answer false Cases.odd_message
         (HTTP.request_for Sample.snowflake) = inr received
       /\ json_result received = inr b
       /\ nullish b = false
       /\ nullish (read b Perror) = false
       /\ error_text (read (read b Perror) Pmessage) = None.
Proof.
  split; [reflexivity |].
  apply (@get_type_error_causes Sample.host
           (Cases.answer false Cases.odd_message) Sample.snowflake
           [] [HTTP.request_for Sample.snowflake] NotConvertible).
  reflexivity.
Defined.

Lemma get_without_error_property_raises_type_error_witness :
  Cases.answer true Cases.bare_failure (HTTP.request_for Sample.snowflake)
  = inr (Sample.respond true (inr Cases.bare_failure))
  /\ nullish Cases.bare_failure = false
  /\ nullish (read Cases.bare_failure Perror) = true
  /\ ToBoolean (read Cases.bare_failure Psuccess) = false
  /\ HTTP.get (Cases.answer true Cases.bare_failure) Sample.snowflake []
     = (Raised (TypeError (ReadOfNullish Pmessage)),
        [HTTP.request_for Sample.snowflake]).
Proof.
  repeat (split; [reflexivity |]).
  apply (@get_without_error_property_raises_type_error Sample.host
           (Cases.answer true Cases.bare_failure) Sample.snowflake
           (Sample.respond true (inr Cases.bare_failure))
           Cases.bare_failure []);
    try reflexivity.
  right. reflexivity.
Defined.

Lemma get_error_without_message_has_empty_message_witness :
  Cases.answer false Cases.no_message (HTTP.request_for Sample.snowflake)
  = inr (Sample.respond false (inr Cases.no_message))
  /\ nullish (read Cases.no_message Perror) = false
  /\ read (read Cases.no_message Perror) Pmessage = JUndefined
  /\ HTTP.get (Cases.answer false Cases.no_message) Sample.snowflake []
     = (Raised (HTTPError
                  {| request := HTTP.request_for Sample.snowflake;
                     response := Sample.respond false (inr Cases.no_message);
                     body := Cases.no_message;
                     message := "" |}),
        [HTTP.request_for Sample.snowflake]).
Proof.
  repeat (split; [reflexivity |]).
  apply (@get_error_without_message_has_empty_message Sample.host
           (Cases.answer false Cases.no_message) Sample.snowflake
           (Sample.respond false (inr Cases.no_message))
           Cases.no_message []);
    try reflexivity.
  left. reflexivity.
Defined.

Lemma get_resolves_on_truthy_success_witness :
  Cases.answer true Cases.loose_success (HTTP.request_for Sample.snowflake)
  = inr (Sample.respond true (inr Cases.loose_success))
  /\ nullish Cases.loose_success = false
  /\ ToBoolean (read Cases.loose_success Psuccess) = true
  /\ HTTP.get (Cases.answer true Cases.loose_success) Sample.snowflake []
     = (Returned JUndefined, [HTTP.request_for Sample.snowflake]).
Proof.
  repeat (split; [reflexivity |]).
  apply (@get_resolves_on_truthy_success Sample.host
           (Cases.answer true Cases.loose_success) Sample.snowflake
           (Sample.respond true (inr Cases.loose_success))
           Cases.loose_success []);
    reflexivity.
Defined.

Lemma get_on_null_body_witness :
  Cases.answer false JNull (HTTP.request_for Sample.snowflake)
  = inr (Sample.respond false (inr JNull))
  /\ HTTP.get (Cases.answer false JNull) Sample.snowflake []
     = (Raised (TypeError (ReadOfNullish Perror)),
        [HTTP.request_for Sample.snowflake]).
Proof.
  split; [reflexivity |].
  apply (@get_on_null_body Sample.host (Cases.answer false JNull)
           Sample.snowflake (Sample.respond false (inr JNull)) []);
    reflexivity.
Defined.

Lemma get_resolves_iff_not_errored_witness :
  Sample.always (inr Sample.found) (HTTP.request_for Sample.snowflake)
  = inr Sample.found
  /\ API.isErrored Sample.found Sample.success_body []
     = (Returned (JBool false), [])
  /\ (false = false
      <-> exists d,
            fst (HTTP.get (Sample.always (inr Sample.found))
                   Sample.snowflake []) = Returned d).
Proof.
  split; [reflexivity |]. split; [reflexivity |].
  apply (@get_resolves_iff_not_errored Sample.host
           (Sample.always (inr Sample.found)) Sample.snowflake
           Sample.found Sample.success_body [] [] false);
    reflexivity.
Defined.

Lemma request_for_injective_witness :
  URL.is_snowflake "123456789012345678" = true
  /\ URL.is_snowflake Sample.snowflake = true
  /\ HTTP.request_for "123456789012345678"
     = HTTP.request_for Sample.snowflake
  /\ "123456789012345678" = Sample.snowflake.
Proof.
  repeat (split; [reflexivity |]).
  apply (@request_for_injective Sample.host
           "123456789012345678" Sample.snowflake);
    reflexivity.
Defined.

Lemma palette_values_distinct_witness :
  Types.palette_value Types.SKY = "sky"
  /\ Types.SKY = Types.SKY.
Proof.
  split; [reflexivity |].
  apply (proj2 (proj2 (proj2 palette_values_distinct)) Types.SKY Types.SKY).
  reflexivity.
Defined.

End ConcreteAnyValue.
